(** * The job document model of kernelci-backend (app/models/job.py)

    A shallow embedding of [JobDocument]: its constructor, its property
    getters and setters, [to_dict] and [from_json], with Python objects as
    attribute stores, dictionaries as finite maps and exceptions as an
    error result. *)

From Stdlib Require Import Ascii.
From stdpp Require Import gmap strings list fin_maps.

Set Warnings "-register-all".
Set Default Proof Using "Type".
Open Scope string_scope.

(** ** Python values *)

(** The values that travel through the model: [None], booleans, integers,
    strings, lists and dictionaries with string keys (what a decoded JSON
    document is made of). A string stands for a [str], or for a [unicode]
    of ASCII characters, which Python 2 treats alike as dictionary keys
    and attribute names. *)
Inductive value : Type :=
  | VNone
  | VBool (b : bool)
  | VInt (z : Z)
  | VStr (s : string)
  | VList (l : list value)
  | VDict (d : gmap string value).

(** ** Exceptions *)

Inductive exn : Type :=
  | KeyError (key : string)
  | ValueError
  | TypeError
  | AttributeError.

Inductive result (A : Type) : Type :=
  | Ok (a : A)
  | Raise (e : exn).
Arguments Ok {A} a.
Arguments Raise {A} e.

(** Sequencing of fallible steps, written [x ← r; k]. *)
#[global] Instance result_ret : MRet result := λ A a, Ok a.
#[global] Instance result_bind : MBind result := λ A B k r,
  match r with
  | Ok a => k a
  | Raise e => Raise e
  end.

(** ** Keys of the mapping representation *)

(** Modelled from the spec: the key constants imported from [models]
    (models/__init__.py is not part of the sources); the external
    interface lists their string values. *)
Definition ID_KEY : string := "_id".
Definition JOB_KEY : string := "job".
Definition KERNEL_KEY : string := "kernel".
Definition METADATA_KEY : string := "metadata".
Definition PRIVATE_KEY : string := "private".
Definition STATUS_KEY : string := "status".
Definition UPDATED_KEY : string := "updated".

Definition JOB_COLLECTION : string := "job".

(** The spec's names for the two failures of deserialization:
    [dict.pop] raises [KeyError] and the decoder raises [ValueError]. *)
Definition MissingIdentityError : exn := KeyError ID_KEY.
Definition DecodeError : exn := ValueError.

(** ** The base document *)

Module BaseDocument.

(** Modelled from the spec: [BaseDocument] (models/base.py is not part of
    the sources) keeps the identity it is constructed with. *)
Record t : Type := mk { name : value }.

(** Modelled from the spec: the constructor of the base class takes the
    identity as its only argument. *)
Definition __init__ (name : value) : t := mk name.

(** Modelled from the spec: the base [to_dict] returns the mapping that
    holds the identity under [ID_KEY]. *)
Definition to_dict (self : t) : gmap string value :=
  {[ ID_KEY := name self ]}.

End BaseDocument.

(** ** The job document *)

(** An instance is the state of its base class together with its
    attribute store (the instance [__dict__]). *)
Record JobDocument : Type := mkJobDocument {
  base : BaseDocument.t;
  attrs : gmap string value
}.

(** [self.<a> = v] for a plain instance attribute. *)
Definition store (a : string) (v : value) (self : JobDocument) : JobDocument :=
  mkJobDocument (base self) (<[a := v]> (attrs self)).

(** [self.<a>] for a plain instance attribute. *)
Definition load (a : string) (self : JobDocument) : result value :=
  match attrs self !! a with
  | Some v => Ok v
  | None => Raise AttributeError
  end.

(** [ID_FORMAT = '%(job)s-%(kernel)s'] *)
Definition ID_FORMAT (job kernel : string) : string :=
  job ++ "-" ++ kernel.

(** [JobDocument.__init__(self, name, job=None, kernel=None)] *)
Definition __init__ (name job kernel : value) : JobDocument :=
  let self := mkJobDocument (BaseDocument.__init__ name) ∅ in
  let self := store "_private" (VBool false) self in
  let self := store "_job" job self in
  let self := store "_kernel" kernel self in
  let self := store "_status" VNone self in
  let self := store "_updated" VNone self in
  let self := store "_metadata" (VDict ∅) self in
  self.

(** The properties: getters. *)
Definition collection (self : JobDocument) : result value := Ok (VStr JOB_COLLECTION).
Definition private (self : JobDocument) : result value := load "_private" self.
Definition job (self : JobDocument) : result value := load "_job" self.
Definition kernel (self : JobDocument) : result value := load "_kernel" self.
Definition updated (self : JobDocument) : result value := load "_updated" self.
Definition status (self : JobDocument) : result value := load "_status" self.
Definition metadata (self : JobDocument) : result value := load "_metadata" self.

(** The properties: setters. *)
Definition set_private (value : value) (self : JobDocument) : JobDocument :=
  store "_private" value self.
Definition set_job (value : value) (self : JobDocument) : JobDocument :=
  store "_job" value self.
Definition set_kernel (value : value) (self : JobDocument) : JobDocument :=
  store "_kernel" value self.
Definition set_updated (value : value) (self : JobDocument) : JobDocument :=
  store "_updated" value self.
Definition set_status (value : value) (self : JobDocument) : JobDocument :=
  store "_status" value self.
Definition set_metadata (value : value) (self : JobDocument) : JobDocument :=
  store "_metadata" value self.

(** [JobDocument.to_dict(self)] *)
Definition to_dict (self : JobDocument) : result (gmap string value) :=
  let job_dict := BaseDocument.to_dict (base self) in
  v ← load "_private" self;
  let job_dict := <[PRIVATE_KEY := v]> job_dict in
  v ← load "_job" self;
  let job_dict := <[JOB_KEY := v]> job_dict in
  v ← load "_kernel" self;
  let job_dict := <[KERNEL_KEY := v]> job_dict in
  v ← load "_updated" self;
  let job_dict := <[UPDATED_KEY := v]> job_dict in
  v ← load "_status" self;
  let job_dict := <[STATUS_KEY := v]> job_dict in
  v ← load "_metadata" self;
  let job_dict := <[METADATA_KEY := v]> job_dict in
  Ok job_dict.

(** ** Attribute assignment by name *)

(** The data descriptors of the class: each property with the setter that
    [setattr] calls for it, [None] for a property declared without one. *)
Definition properties : list (string * option (value → JobDocument → JobDocument)) :=
  [ ("collection", None);
    ("private", Some set_private);
    ("job", Some set_job);
    ("kernel", Some set_kernel);
    ("updated", Some set_updated);
    ("status", Some set_status);
    ("metadata", Some set_metadata) ].

Fixpoint assoc {A : Type} (key : string) (table : list (string * A)) : option A :=
  match table with
  | [] => None
  | (k, a) :: table => if decide (k = key) then Some a else assoc key table
  end.

(** The property of the class named [key], if there is one. *)
Definition property (key : string) : option (option (value → JobDocument → JobDocument)) :=
  assoc key properties.

(** [setattr(self, key, value)] on an instance of the class: a property
    goes through its setter and fails without one; [__class__] only takes
    a class, which no [value] is; [__dict__] only takes a dictionary and
    rebinds the whole attribute store to it; [__weakref__] is not
    writable; any other name becomes an instance attribute. *)
Definition setattr (self : JobDocument) (key : string) (value : value) : result JobDocument :=
  match property key with
  | Some (Some fset) => Ok (fset value self)
  | Some None => Raise AttributeError
  | None =>
      if decide (key = "__class__") then Raise TypeError
      else if decide (key = "__dict__") then
        match value with
        | VDict d => Ok (mkJobDocument (base self) d)
        | _ => Raise TypeError
        end
      else if decide (key = "__weakref__") then Raise AttributeError
      else Ok (store key value self)
  end.

(** The loop [for key, value in json_obj.iteritems(): setattr(job_doc, key,
    value)]. It returns the instance as the loop leaves it and the
    exception that stopped it, if any. [shared] records that the attribute
    store has been rebound to the dictionary the caller's mapping holds
    under [__dict__], so that later assignments show through that
    mapping. *)
Fixpoint setattr_items (job_doc : JobDocument) (shared : bool)
    (items : list (string * value)) : JobDocument * bool * option exn :=
  match items with
  | [] => (job_doc, shared, None)
  | (key, value) :: items =>
      match setattr job_doc key value with
      | Ok job_doc => setattr_items job_doc (shared || bool_decide (key = "__dict__")) items
      | Raise e => (job_doc, shared, Some e)
      end
  end.

Section from_json.

(** [bson.json_util.loads]: the decoder of the exchange format, a library
    function; [None] stands for the [ValueError] it raises on text it
    cannot parse. *)
Variable loads : string → option value.

(** The statements of [from_json] after the decoding step, on an object
    that is not a string. The first component is that object as the call
    leaves it. *)
Definition from_json_obj (json_obj : value) : value * result JobDocument :=
  match json_obj with
  | VDict d =>
      (* name = json_obj.pop(ID_KEY) *)
      match d !! ID_KEY with
      | None => (json_obj, Raise (KeyError ID_KEY))
      | Some name =>
          let d := delete ID_KEY d in
          let job_doc := __init__ name VNone VNone in
          let '(job_doc, shared, raised) := setattr_items job_doc false (map_to_list d) in
          let d := if shared then <["__dict__" := VDict (attrs job_doc)]> d else d in
          (VDict d, match raised with None => Ok job_doc | Some e => Raise e end)
      end
  | VList _ => (json_obj, Raise TypeError)
  | _ => (json_obj, Raise AttributeError)
  end.

(** [JobDocument.from_json(json_obj)]. The first component of the result
    is the caller's argument as the call leaves it, the second what the
    call returns or raises. *)
Definition from_json (json_obj : value) : value * result JobDocument :=
  match json_obj with
  | VStr s =>
      match loads s with
      | None => (json_obj, Raise ValueError)
      | Some decoded => (json_obj, snd (from_json_obj decoded))
      end
  | _ => from_json_obj json_obj
  end.

End from_json.

(** ** A decoder to run the model on text *)

(** [from_json] is stated for any decoder. To evaluate it on concrete
    text the examples use this one, for the plain JSON fragment that
    [value] represents: [null], [true], [false], integers, strings with
    the one-letter escapes, arrays and objects. *)
Module Json.

Definition dquote : ascii := ascii_of_nat 34.
Definition backslash : ascii := ascii_of_nat 92.

Definition is_space (c : ascii) : bool :=
  bool_decide (nat_of_ascii c ∈ [32; 9; 10; 13]%nat).

Fixpoint skip_space (s : string) : string :=
  match s with
  | String c r => if is_space c then skip_space r else s
  | EmptyString => s
  end.

(** [strip p s] removes the prefix [p] from [s]. *)
Fixpoint strip (p s : string) : option string :=
  match p, s with
  | EmptyString, _ => Some s
  | String a p, String b s => if decide (a = b) then strip p s else None
  | String _ _, EmptyString => None
  end.

Definition digit (c : ascii) : option Z :=
  let n := nat_of_ascii c in
  if decide (48 ≤ n ≤ 57)%nat then Some (Z.of_nat n - 48)%Z else None.

Fixpoint digits (acc : Z) (s : string) : Z * string :=
  match s with
  | String c r =>
      match digit c with
      | Some n => digits (10 * acc + n)%Z r
      | None => (acc, s)
      end
  | EmptyString => (acc, s)
  end.

(** A number: an optional sign and at least one digit; a fraction or an
    exponent has no [value] and is refused. *)
Definition number (s : string) : option (Z * string) :=
  let '(sign, s) :=
    match s with
    | String "-" r => ((-1)%Z, r)
    | _ => (1%Z, s)
    end in
  match s with
  | String c _ =>
      match digit c with
      | Some _ =>
          let '(n, r) := digits 0 s in
          match r with
          | String c _ =>
              if bool_decide (c ∈ ["."; "e"; "E"]%char) then None
              else Some ((sign * n)%Z, r)
          | EmptyString => Some ((sign * n)%Z, r)
          end
      | None => None
      end
  | EmptyString => None
  end.

Definition escape (c : ascii) : option ascii :=
  if decide (c = dquote) then Some dquote
  else if decide (c = backslash) then Some backslash
  else if decide (c = "/"%char) then Some "/"%char
  else if decide (c = "b"%char) then Some (ascii_of_nat 8)
  else if decide (c = "f"%char) then Some (ascii_of_nat 12)
  else if decide (c = "n"%char) then Some (ascii_of_nat 10)
  else if decide (c = "r"%char) then Some (ascii_of_nat 13)
  else if decide (c = "t"%char) then Some (ascii_of_nat 9)
  else None.

(** The characters of a string up to its closing quote; the opening one
    has been read. *)
Fixpoint chars (s : string) : option (string * string) :=
  match s with
  | EmptyString => None
  | String c r =>
      if decide (c = dquote) then Some (EmptyString, r)
      else if decide (c = backslash) then
        match r with
        | String e r =>
            c ← escape e;
            '(t, r) ← chars r;
            Some (String c t, r)
        | EmptyString => None
        end
      else
        '(t, r) ← chars r;
        Some (String c t, r)
  end.

Fixpoint parse_value (fuel : nat) (s : string) : option (value * string) :=
  match fuel with
  | O => None
  | S fuel =>
      match skip_space s with
      | EmptyString => None
      | String c r as s =>
          if decide (c = "["%char) then
            match skip_space r with
            | String "]" r => Some (VList [], r)
            | r => parse_elements fuel [] r
            end
          else if decide (c = "{"%char) then
            match skip_space r with
            | String "}" r => Some (VDict ∅, r)
            | r => parse_members fuel ∅ r
            end
          else if decide (c = dquote) then
            '(t, r) ← chars r;
            Some (VStr t, r)
          else if decide (c = "n"%char) then
            r ← strip "null" s; Some (VNone, r)
          else if decide (c = "t"%char) then
            r ← strip "true" s; Some (VBool true, r)
          else if decide (c = "f"%char) then
            r ← strip "false" s; Some (VBool false, r)
          else
            '(n, r) ← number s;
            Some (VInt n, r)
      end
  end
with parse_elements (fuel : nat) (acc : list value) (s : string) : option (value * string) :=
  match fuel with
  | O => None
  | S fuel =>
      '(v, r) ← parse_value fuel s;
      match skip_space r with
      | String "," r => parse_elements fuel (acc ++ [v]) r
      | String "]" r => Some (VList (acc ++ [v]), r)
      | _ => None
      end
  end
with parse_members (fuel : nat) (acc : gmap string value) (s : string) : option (value * string) :=
  match fuel with
  | O => None
  | S fuel =>
      match skip_space s with
      | String c r =>
          if decide (c = dquote) then
            '(k, r) ← chars r;
            match skip_space r with
            | String ":" r =>
                '(v, r) ← parse_value fuel r;
                match skip_space r with
                | String "," r => parse_members fuel (<[k := v]> acc) r
                | String "}" r => Some (VDict (<[k := v]> acc), r)
                | _ => None
                end
            | _ => None
            end
          else None
      | EmptyString => None
      end
  end.

(** The whole text must be one value. *)
Definition loads (s : string) : option value :=
  '(v, r) ← parse_value (2 * String.length s + 2) s;
  match skip_space r with
  | EmptyString => Some v
  | String _ _ => None
  end.

(** [quoted s] is [s] between double quotes. *)
Definition quoted (s : string) : string :=
  String dquote (s ++ String dquote EmptyString).

End Json.

(** ** Notions used by the statements *)

(** The attribute that an assignment to [key] writes: the backing
    attribute of a property with a setter, the name itself otherwise. *)
Definition slot (key : string) : string :=
  match property key with
  | Some (Some _) => "_" ++ key
  | _ => key
  end.

(** The names [setattr] refuses or treats as the whole attribute store. *)
Definition reserved : list string :=
  ["collection"; "__class__"; "__dict__"; "__weakref__"].

Definition assignable (key : string) : Prop := key ∉ reserved.

(** The attributes every constructed instance holds. *)
Definition fields : list string :=
  ["_private"; "_job"; "_kernel"; "_updated"; "_status"; "_metadata"].

Definition well_formed (self : JobDocument) : Prop :=
  ∀ a, a ∈ fields → is_Some (attrs self !! a).

(** The keys [to_dict] adds to those of the base class. *)
Definition job_keys : gset string :=
  {[ PRIVATE_KEY; JOB_KEY; KERNEL_KEY; UPDATED_KEY; STATUS_KEY; METADATA_KEY ]}.

(** What the loop of [from_json] computes when nothing stops it. *)
Definition assign (self : JobDocument) (item : string * value) : JobDocument :=
  store (slot item.1) item.2 self.

(** The six properties that have a setter, with the key each is
    serialized under, its backing attribute, its getter and its setter. *)
Inductive field : Type :=
  | Private | Job | Kernel | Updated | Status | Metadata.

Definition field_key (f : field) : string :=
  match f with
  | Private => PRIVATE_KEY
  | Job => JOB_KEY
  | Kernel => KERNEL_KEY
  | Updated => UPDATED_KEY
  | Status => STATUS_KEY
  | Metadata => METADATA_KEY
  end.

Definition field_attr (f : field) : string :=
  match f with
  | Private => "_private"
  | Job => "_job"
  | Kernel => "_kernel"
  | Updated => "_updated"
  | Status => "_status"
  | Metadata => "_metadata"
  end.

Definition fget (f : field) : JobDocument → result value :=
  match f with
  | Private => private
  | Job => job
  | Kernel => kernel
  | Updated => updated
  | Status => status
  | Metadata => metadata
  end.

Definition fset (f : field) : value → JobDocument → JobDocument :=
  match f with
  | Private => set_private
  | Job => set_job
  | Kernel => set_kernel
  | Updated => set_updated
  | Status => set_status
  | Metadata => set_metadata
  end.

(** What the constructor leaves in a field that [from_json] does not
    assign. *)
Definition field_default (f : field) : value :=
  match f with
  | Private => VBool false
  | Metadata => VDict ∅
  | _ => VNone
  end.

(** The names [setattr] refuses whatever the value. *)
Definition refused : list string :=
  ["collection"; "__class__"; "__weakref__"].

(** ** Attribute assignment *)

Lemma setattr_assignable self key v :
  assignable key → setattr self key v = Ok (store (slot key) v self).
Proof.
  unfold assignable, reserved. rewrite !not_elem_of_cons. intros (?&?&?&?&_).
  unfold setattr, slot, property, properties; simpl.
  repeat (case_decide; [subst; try done|]); done.
Qed.

Lemma setattr_items_assignable self shared items :
  Forall (λ item, assignable item.1) items →
  setattr_items self shared items = (foldl assign self items, shared, None).
Proof.
  intros Hall. revert self shared.
  induction Hall as [|[key v] items Hkey _ IH]; intros self shared; [done|].
  simpl in *. rewrite setattr_assignable by done.
  rewrite IH. unfold assignable, reserved in Hkey.
  rewrite bool_decide_eq_false_2; [by rewrite orb_false_r|].
  intros ->. apply Hkey. set_solver.
Qed.

Lemma base_foldl_assign self items :
  base (foldl assign self items) = base self.
Proof.
  revert self. induction items as [|item items IH]; intros self; [done|].
  simpl. by rewrite IH.
Qed.

(** An attribute no item writes keeps its value. *)
Lemma attrs_foldl_assign_other self items a :
  (∀ item, item ∈ items → slot item.1 ≠ a) →
  attrs (foldl assign self items) !! a = attrs self !! a.
Proof.
  revert self. induction items as [|item items IH]; intros self Hne; [done|].
  simpl. rewrite IH.
  - simpl. apply lookup_insert_ne, Hne. left.
  - intros item' Hin. apply Hne. by right.
Qed.

(** An attribute that the items agree on holds their value. *)
Lemma attrs_foldl_assign_agree self items key v :
  (∀ item, item ∈ items → slot item.1 = slot key → item.2 = v) →
  attrs self !! slot key = Some v ∨ (key, v) ∈ items →
  attrs (foldl assign self items) !! slot key = Some v.
Proof.
  revert self. induction items as [|item items IH]; intros self Hagree Hin.
  { destruct Hin as [?|Hin]; [done|]. by apply elem_of_nil in Hin. }
  simpl. apply IH.
  { intros item' Hin'. apply Hagree. by right. }
  destruct (decide (slot item.1 = slot key)) as [Heq|Hne].
  - left. simpl. rewrite Heq, (Hagree item); [apply lookup_insert_eq|left|done].
  - destruct Hin as [Hin|Hin].
    + left. simpl. by rewrite lookup_insert_ne.
    + right. apply elem_of_cons in Hin as [<-|Hin]; [by destruct Hne|done].
Qed.

(** The attribute store is only shared once the key [__dict__] has been
    assigned. *)
Lemma setattr_items_shared items self shared self' shared' raised :
  setattr_items self shared items = (self', shared', raised) →
  shared' = true → shared = true ∨ "__dict__" ∈ items.*1.
Proof.
  revert self shared.
  induction items as [|[key v] items IH]; intros self shared; simpl.
  - intros [= _ -> _]. by left.
  - destruct (setattr self key v); [|intros [= _ -> _]; by left].
    intros Hrun Htrue. destruct (IH _ _ Hrun Htrue) as [Hor|Hin].
    + apply orb_true_iff in Hor as [?|Hk]; [by left|].
      apply bool_decide_eq_true in Hk as ->. right. left.
    + right. by right.
Qed.

(** ** Deserialization *)

Section from_json_facts.

Variable loads : string → option value.

(** On a mapping with the identity key and assignable keys only, the loop
    runs to its end. *)
Lemma from_json_assignable d name :
  d !! ID_KEY = Some name →
  (∀ key, key ≠ ID_KEY → is_Some (d !! key) → assignable key) →
  from_json loads (VDict d) =
    (VDict (delete ID_KEY d),
     Ok (foldl assign (__init__ name VNone VNone) (map_to_list (delete ID_KEY d)))).
Proof.
  intros Hid Hkeys. simpl. rewrite Hid.
  rewrite setattr_items_assignable; [done|].
  apply Forall_forall. intros [key v] Hin%elem_of_map_to_list. simpl.
  apply lookup_delete_Some in Hin as [Hne Hin]. by apply Hkeys.
Qed.

(** The attribute written for a key of the mapping, when no other key
    writes the same one. *)
Lemma attrs_from_items d name key v :
  key ≠ ID_KEY → d !! key = Some v →
  (∀ key', key' ≠ ID_KEY → is_Some (d !! key') → slot key' = slot key → key' = key) →
  attrs (foldl assign (__init__ name VNone VNone) (map_to_list (delete ID_KEY d)))
    !! slot key = Some v.
Proof.
  intros Hne Hkey Hslot. apply attrs_foldl_assign_agree.
  - intros [key' v'] Hin%elem_of_map_to_list Heq. simpl in *.
    apply lookup_delete_Some in Hin as [Hne' Hin].
    rewrite (Hslot key') in Hin by done. congruence.
  - right. apply elem_of_map_to_list, lookup_delete_Some. done.
Qed.

(** Whatever happens after the pop, the identity key is gone from the
    caller's mapping and its other keys are still there. *)
Lemma from_json_pops d name :
  d !! ID_KEY = Some name →
  ∃ d', (from_json loads (VDict d)).1 = VDict d' ∧ dom d' = dom d ∖ {[ID_KEY]}.
Proof.
  intros Hid. simpl. rewrite Hid.
  destruct (setattr_items _ _ _) as [[job_doc shared] raised] eqn:Hloop.
  simpl. eexists; split; [done|].
  destruct shared; [|by rewrite dom_delete_L].
  rewrite dom_insert_L, dom_delete_L.
  destruct (setattr_items_shared _ _ _ _ _ _ Hloop eq_refl) as [?|Hin]; [done|].
  apply list_elem_of_fmap in Hin as ([key v] & -> & Hin%elem_of_map_to_list).
  simpl in *. apply elem_of_dom_2 in Hin. rewrite dom_delete_L in Hin.
  apply set_eq. intros key'. rewrite elem_of_union, elem_of_singleton.
  split; [by intros [->|?]|by right].
Qed.

End from_json_facts.

(** ** Serialization *)

Lemma well_formed_init name job kernel : well_formed (__init__ name job kernel).
Proof.
  intros a Ha. unfold fields in Ha.
  repeat (apply elem_of_cons in Ha as [->|Ha]; [vm_compute; by eexists|]).
  by apply elem_of_nil in Ha.
Qed.

Lemma well_formed_store a v self : well_formed self → well_formed (store a v self).
Proof.
  intros Hwf b Hb. simpl. destruct (decide (a = b)) as [->|Hne].
  - by rewrite lookup_insert_eq.
  - rewrite lookup_insert_ne by done. by apply Hwf.
Qed.

(** [to_dict] succeeds exactly on the instances that hold the six
    attributes, with the mapping built from them. *)
Lemma to_dict_Ok self job_dict :
  to_dict self = Ok job_dict ↔
  ∃ p j k u s m,
    attrs self !! "_private" = Some p ∧ attrs self !! "_job" = Some j ∧
    attrs self !! "_kernel" = Some k ∧ attrs self !! "_updated" = Some u ∧
    attrs self !! "_status" = Some s ∧ attrs self !! "_metadata" = Some m ∧
    job_dict =
      <[METADATA_KEY := m]> (<[STATUS_KEY := s]> (<[UPDATED_KEY := u]>
        (<[KERNEL_KEY := k]> (<[JOB_KEY := j]> (<[PRIVATE_KEY := p]>
          (BaseDocument.to_dict (base self))))))).
Proof.
  unfold to_dict, load. split.
  - destruct (attrs self !! "_private") as [p|]; [|done].
    destruct (attrs self !! "_job") as [j|]; [|done].
    destruct (attrs self !! "_kernel") as [k|]; [|done].
    destruct (attrs self !! "_updated") as [u|]; [|done].
    destruct (attrs self !! "_status") as [s|]; [|done].
    destruct (attrs self !! "_metadata") as [m|]; [|done].
    simpl. intros [= <-]. by exists p, j, k, u, s, m.
  - intros (p & j & k & u & s & m & -> & -> & -> & -> & -> & -> & ->). done.
Qed.

Lemma to_dict_well_formed self :
  well_formed self → ∃ job_dict, to_dict self = Ok job_dict.
Proof.
  intros Hwf.
  destruct (Hwf "_private") as [p Hp]; [set_solver|].
  destruct (Hwf "_job") as [j Hj]; [set_solver|].
  destruct (Hwf "_kernel") as [k Hk]; [set_solver|].
  destruct (Hwf "_updated") as [u Hu]; [set_solver|].
  destruct (Hwf "_status") as [s Hs]; [set_solver|].
  destruct (Hwf "_metadata") as [m Hm]; [set_solver|].
  eexists. apply to_dict_Ok. by exists p, j, k, u, s, m.
Qed.

(** ** Construction and accessors *)

(** C7: whatever the name, the job and the kernel, a freshly constructed
    document is not private, has an empty metadata dictionary (not
    [None]), no status and no update date. *)
Theorem init_defaults name job_name kernel_name :
  let self := __init__ name job_name kernel_name in
  private self = Ok (VBool false) ∧
  metadata self = Ok (VDict ∅) ∧
  metadata self ≠ Ok VNone ∧
  status self = Ok VNone ∧
  updated self = Ok VNone.
Proof. by repeat split. Qed.

(** A setter leaves the base state and every other attribute alone. *)
Lemma store_frame a v self :
  base (store a v self) = base self ∧
  ∀ b, b ≠ a → attrs (store a v self) !! b = attrs self !! b.
Proof. split; [done|]. intros b Hne. simpl. by apply lookup_insert_ne. Qed.

(** C8: each of the six setters changes its own attribute only: the base
    state, hence the identity fixed at construction, and every other
    attribute are as before; in particular assigning the job or the
    kernel does not recompute the identity that [to_dict] emits. *)
Theorem setters_frame self v :
  (base (set_private v self) = base self ∧
   ∀ b, b ≠ "_private" → attrs (set_private v self) !! b = attrs self !! b) ∧
  (base (set_job v self) = base self ∧
   ∀ b, b ≠ "_job" → attrs (set_job v self) !! b = attrs self !! b) ∧
  (base (set_kernel v self) = base self ∧
   ∀ b, b ≠ "_kernel" → attrs (set_kernel v self) !! b = attrs self !! b) ∧
  (base (set_status v self) = base self ∧
   ∀ b, b ≠ "_status" → attrs (set_status v self) !! b = attrs self !! b) ∧
  (base (set_updated v self) = base self ∧
   ∀ b, b ≠ "_updated" → attrs (set_updated v self) !! b = attrs self !! b) ∧
  (base (set_metadata v self) = base self ∧
   ∀ b, b ≠ "_metadata" → attrs (set_metadata v self) !! b = attrs self !! b) ∧
  BaseDocument.to_dict (base (set_job v self)) !! ID_KEY =
    BaseDocument.to_dict (base self) !! ID_KEY ∧
  BaseDocument.to_dict (base (set_kernel v self)) !! ID_KEY =
    BaseDocument.to_dict (base self) !! ID_KEY.
Proof.
  unfold set_private, set_job, set_kernel, set_status, set_updated, set_metadata.
  repeat (split; [apply store_frame|]). done.
Qed.

(** C2: the document constructed as [JobDocument("myjob-3.10",
    job="myjob", kernel="3.10")] serializes to the mapping with exactly
    the seven entries [_id], [job], [kernel], [private], [status],
    [updated] and [metadata] and the values given at construction or by
    default. *)
Theorem to_dict_myjob :
  to_dict (__init__ (VStr "myjob-3.10") (VStr "myjob") (VStr "3.10")) =
  Ok (list_to_map
        [ ("_id", VStr "myjob-3.10"); ("job", VStr "myjob");
          ("kernel", VStr "3.10"); ("private", VBool false);
          ("status", VNone); ("updated", VNone); ("metadata", VDict ∅) ]).
Proof. vm_compute. reflexivity. Qed.

(** ** Failures of deserialization *)

(** C3: on a mapping without the identity key [from_json] raises the
    missing-identity error ([KeyError] on [_id]) and returns no instance,
    whether the mapping is passed as such or decoded from text. *)
Theorem from_json_missing_id loads d :
  d !! ID_KEY = None →
  from_json loads (VDict d) = (VDict d, Raise MissingIdentityError) ∧
  ∀ s, loads s = Some (VDict d) →
    from_json loads (VStr s) = (VStr s, Raise MissingIdentityError).
Proof.
  intros Hid. split.
  - unfold from_json, from_json_obj. by rewrite Hid.
  - intros s Hs. unfold from_json, from_json_obj. by rewrite Hs, Hid.
Qed.

Lemma from_json_missing_id_witness :
  let d : gmap string value := {[ "job" := VStr "x"; "kernel" := VStr "y" ]} in
  let s := "{" ++ Json.quoted "job" ++ ": " ++ Json.quoted "x" ++ ", "
               ++ Json.quoted "kernel" ++ ": " ++ Json.quoted "y" ++ "}" in
  d !! ID_KEY = None ∧ Json.loads s = Some (VDict d) ∧
  from_json Json.loads (VDict d) = (VDict d, Raise MissingIdentityError) ∧
  from_json Json.loads (VStr s) = (VStr s, Raise MissingIdentityError).
Proof.
  intros d s.
  assert (d !! ID_KEY = None) as Hid by (vm_compute; reflexivity).
  assert (Json.loads s = Some (VDict d)) as Hs by (vm_compute; reflexivity).
  split; [exact Hid|]. split; [exact Hs|].
  destruct (from_json_missing_id Json.loads d Hid) as [Hobj Htext].
  split; [exact Hobj|exact (Htext s Hs)].
Defined.

(** C4: on text that the decoder of the exchange format rejects,
    [from_json] raises the decode error and returns no instance. *)
Theorem from_json_malformed loads s :
  loads s = None →
  from_json loads (VStr s) = (VStr s, Raise DecodeError).
Proof. intros Hs. simpl. by rewrite Hs. Qed.

Lemma from_json_malformed_witness :
  Json.loads "{not valid}" = None ∧
  from_json Json.loads (VStr "{not valid}") = (VStr "{not valid}", Raise DecodeError).
Proof.
  assert (Json.loads "{not valid}" = None) as Hs by (vm_compute; reflexivity).
  split; [exact Hs|]. exact (from_json_malformed Json.loads "{not valid}" Hs).
Defined.

(** ** Deserialization of a mapping *)

(** C6: from the mapping [{"_id": "a-b", "status": "PASS", "metadata":
    {"git_commit": "abc123"}}] [from_json] returns a document whose
    status is ["PASS"], whose metadata is [{"git_commit": "abc123"}] and
    whose job and kernel are [None]. *)
Theorem from_json_scenario loads :
  let json_obj : gmap string value :=
    {[ "_id" := VStr "a-b"; "status" := VStr "PASS";
       "metadata" := VDict {[ "git_commit" := VStr "abc123" ]} ]} in
  ∃ job_doc,
    (from_json loads (VDict json_obj)).2 = Ok job_doc ∧
    status job_doc = Ok (VStr "PASS") ∧
    metadata job_doc = Ok (VDict {[ "git_commit" := VStr "abc123" ]}) ∧
    job job_doc = Ok VNone ∧
    kernel job_doc = Ok VNone.
Proof.
  intros json_obj. eexists. split; [vm_compute; reflexivity|].
  repeat split; vm_compute; reflexivity.
Qed.

(** C9: given an already-parsed mapping that holds the identity key,
    [from_json] leaves the caller's mapping without that key, whether it
    returns or fails in the loop: the mapping is not what it was. *)
Theorem from_json_mutates_argument loads d name :
  d !! ID_KEY = Some name →
  ∃ d', (from_json loads (VDict d)).1 = VDict d' ∧
        d' !! ID_KEY = None ∧
        dom d' = dom d ∖ {[ID_KEY]} ∧
        d' ≠ d.
Proof.
  intros Hid. destruct (from_json_pops loads d name Hid) as (d' & Hfst & Hdom).
  assert (d' !! ID_KEY = None) as Hgone.
  { apply not_elem_of_dom. rewrite Hdom, elem_of_difference, elem_of_singleton.
    by intros [_ ?]. }
  exists d'. repeat split; [done..|]. intros ->. congruence.
Qed.

Lemma from_json_mutates_argument_witness :
  let d : gmap string value := {[ "_id" := VStr "a-b"; "collection" := VStr "x" ]} in
  d !! ID_KEY = Some (VStr "a-b") ∧
  (from_json Json.loads (VDict d)).2 = Raise AttributeError ∧
  ∃ d', (from_json Json.loads (VDict d)).1 = VDict d' ∧
        d' !! ID_KEY = None ∧
        dom d' = dom d ∖ {[ID_KEY]} ∧
        d' ≠ d.
Proof.
  intros d.
  assert (d !! ID_KEY = Some (VStr "a-b")) as Hid by (vm_compute; reflexivity).
  split; [exact Hid|]. split; [vm_compute; reflexivity|].
  exact (from_json_mutates_argument Json.loads d (VStr "a-b") Hid).
Defined.

(** ** Keys of the serialized mapping *)

Lemma elem_of_job_keys key :
  key ∈ job_keys ↔
  key = PRIVATE_KEY ∨ key = JOB_KEY ∨ key = KERNEL_KEY ∨
  key = UPDATED_KEY ∨ key = STATUS_KEY ∨ key = METADATA_KEY.
Proof.
  unfold job_keys. rewrite !elem_of_union, !elem_of_singleton. tauto.
Qed.

Lemma job_keys_assignable key : key ∈ job_keys → assignable key.
Proof.
  rewrite elem_of_job_keys. unfold assignable, reserved.
  rewrite !not_elem_of_cons.
  intros [->|[->|[->|[->|[->| ->]]]]]; repeat split; try done; apply not_elem_of_nil.
Qed.

Lemma to_dict_dom self job_dict :
  to_dict self = Ok job_dict →
  dom job_dict = dom (BaseDocument.to_dict (base self)) ∪ job_keys.
Proof.
  intros (p & j & k & u & s & m & _ & _ & _ & _ & _ & _ & ->)%to_dict_Ok.
  rewrite !dom_insert_L. unfold job_keys.
  apply set_eq. intros key. rewrite !elem_of_union, !elem_of_singleton. tauto.
Qed.

Lemma to_dict_lookup self job_dict :
  to_dict self = Ok job_dict →
  job_dict !! ID_KEY = Some (BaseDocument.name (base self)) ∧
  job_dict !! PRIVATE_KEY = attrs self !! "_private" ∧
  job_dict !! JOB_KEY = attrs self !! "_job" ∧
  job_dict !! KERNEL_KEY = attrs self !! "_kernel" ∧
  job_dict !! UPDATED_KEY = attrs self !! "_updated" ∧
  job_dict !! STATUS_KEY = attrs self !! "_status" ∧
  job_dict !! METADATA_KEY = attrs self !! "_metadata".
Proof.
  intros (p & j & k & u & s & m & -> & -> & -> & -> & -> & -> & ->)%to_dict_Ok.
  unfold BaseDocument.to_dict. repeat split; by simplify_map_eq.
Qed.

(** C10: [to_dict] emits the keys of the base class and the six keys
    [private], [job], [kernel], [updated], [status] and [metadata], and
    no other; so a key of the input of [from_json] outside these is not
    in what the returned document serializes to. *)
Theorem to_dict_drops_unknown_keys self job_dict :
  to_dict self = Ok job_dict →
  dom job_dict = dom (BaseDocument.to_dict (base self)) ∪ job_keys ∧
  ∀ loads d key,
    (from_json loads (VDict d)).2 = Ok self →
    is_Some (d !! key) →
    key ∉ dom (BaseDocument.to_dict (base self)) → key ∉ job_keys →
    job_dict !! key = None.
Proof.
  intros Hdict. pose proof (to_dict_dom _ _ Hdict) as Hdom.
  split; [done|]. intros _ _ key _ _ Hbase Hkey.
  apply not_elem_of_dom. rewrite Hdom, elem_of_union. tauto.
Qed.

Lemma to_dict_drops_unknown_keys_witness :
  let d : gmap string value := {[ "_id" := VStr "a-b"; "arch" := VStr "arm" ]} in
  ∃ job_doc job_dict,
    (from_json Json.loads (VDict d)).2 = Ok job_doc ∧
    attrs job_doc !! "arch" = Some (VStr "arm") ∧
    to_dict job_doc = Ok job_dict ∧
    dom job_dict = dom (BaseDocument.to_dict (base job_doc)) ∪ job_keys ∧
    job_dict !! "arch" = None.
Proof.
  intros d.
  destruct (from_json Json.loads (VDict d)).2 as [job_doc|] eqn:Hdoc;
    [|vm_compute in Hdoc; discriminate].
  destruct (to_dict job_doc) as [job_dict|] eqn:Hdict.
  2: { vm_compute in Hdoc. injection Hdoc as <-. vm_compute in Hdict. discriminate. }
  exists job_doc, job_dict.
  destruct (to_dict_drops_unknown_keys job_doc job_dict Hdict) as [Hdom Hdrop].
  split; [reflexivity|].
  split; [vm_compute in Hdoc; injection Hdoc as <-; vm_compute; reflexivity|].
  split; [exact Hdict|]. split; [exact Hdom|].
  apply (Hdrop Json.loads d "arch" Hdoc).
  - vm_compute. by eexists.
  - unfold BaseDocument.to_dict. rewrite dom_singleton_L, elem_of_singleton.
    discriminate.
  - rewrite elem_of_job_keys. intros [?|[?|[?|[?|[?|?]]]]]; discriminate.
Defined.

(** ** Round trip *)

Lemma slot_job_keys_inj key key' :
  key ∈ job_keys → key' ∈ job_keys → slot key' = slot key → key' = key.
Proof.
  rewrite !elem_of_job_keys.
  intros [->|[->|[->|[->|[->| ->]]]]] [->|[->|[->|[->|[->| ->]]]]];
    first [reflexivity | vm_compute; discriminate].
Qed.

(** The document read back from a serialized one holds, in each of the
    six attributes, what the mapping holds under the matching key. *)
Lemma attrs_from_to_dict self job_dict key :
  to_dict self = Ok job_dict → key ∈ job_keys →
  attrs (foldl assign (__init__ (BaseDocument.name (base self)) VNone VNone)
           (map_to_list (delete ID_KEY job_dict))) !! slot key
  = job_dict !! key.
Proof.
  intros Hdict Hkey. pose proof (to_dict_dom _ _ Hdict) as Hdom.
  assert (∀ key', key' ≠ ID_KEY → is_Some (job_dict !! key') → key' ∈ job_keys) as Hkeys.
  { intros key' Hne Hin%elem_of_dom. rewrite Hdom in Hin.
    unfold BaseDocument.to_dict in Hin.
    rewrite dom_singleton_L, elem_of_union, elem_of_singleton in Hin. tauto. }
  assert (is_Some (job_dict !! key)) as [v Hv].
  { apply elem_of_dom. rewrite Hdom. apply elem_of_union. by right. }
  rewrite Hv. apply attrs_from_items; [|done|].
  - intros ->. revert Hkey. rewrite elem_of_job_keys.
    intros [?|[?|[?|[?|[?|?]]]]]; discriminate.
  - intros key' Hne Hin. apply slot_job_keys_inj; [done|by apply Hkeys].
Qed.

(** C1: a document that holds its six attributes serializes with
    [to_dict] to a mapping from which [from_json] returns a document with
    the same private, job, kernel, updated, status and metadata values
    (and the same identity). *)
Theorem to_dict_from_json_roundtrip loads self :
  well_formed self →
  ∃ job_dict job_doc,
    to_dict self = Ok job_dict ∧
    (from_json loads (VDict job_dict)).2 = Ok job_doc ∧
    private job_doc = private self ∧
    job job_doc = job self ∧
    kernel job_doc = kernel self ∧
    updated job_doc = updated self ∧
    status job_doc = status self ∧
    metadata job_doc = metadata self ∧
    BaseDocument.name (base job_doc) = BaseDocument.name (base self).
Proof.
  intros [job_dict Hdict]%to_dict_well_formed.
  destruct (to_dict_lookup _ _ Hdict) as (Hid & Hp & Hj & Hk & Hu & Hs & Hm).
  exists job_dict. eexists. split; [done|].
  rewrite (from_json_assignable loads _ _ Hid).
  2: { intros key Hne Hin%elem_of_dom. apply job_keys_assignable.
       rewrite (to_dict_dom _ _ Hdict) in Hin. unfold BaseDocument.to_dict in Hin.
       rewrite dom_singleton_L, elem_of_union, elem_of_singleton in Hin. tauto. }
  split; [done|].
  unfold private, job, kernel, updated, status, metadata, load.
  rewrite <- Hp, <- Hj, <- Hk, <- Hu, <- Hs, <- Hm.
  rewrite <- (attrs_from_to_dict self job_dict PRIVATE_KEY Hdict),
    <- (attrs_from_to_dict self job_dict JOB_KEY Hdict),
    <- (attrs_from_to_dict self job_dict KERNEL_KEY Hdict),
    <- (attrs_from_to_dict self job_dict UPDATED_KEY Hdict),
    <- (attrs_from_to_dict self job_dict STATUS_KEY Hdict),
    <- (attrs_from_to_dict self job_dict METADATA_KEY Hdict)
    by (apply elem_of_job_keys; tauto).
  repeat split. by rewrite base_foldl_assign.
Qed.

Lemma to_dict_from_json_roundtrip_witness :
  let self :=
    set_metadata (VDict {[ "git_commit" := VStr "abc123" ]})
      (set_status (VStr "PASS")
        (__init__ (VStr (ID_FORMAT "myjob" "3.10")) (VStr "myjob") (VStr "3.10"))) in
  well_formed self ∧
  ∃ job_dict job_doc,
    to_dict self = Ok job_dict ∧
    (from_json Json.loads (VDict job_dict)).2 = Ok job_doc ∧
    private job_doc = private self ∧
    job job_doc = job self ∧
    kernel job_doc = kernel self ∧
    updated job_doc = updated self ∧
    status job_doc = status self ∧
    metadata job_doc = metadata self ∧
    BaseDocument.name (base job_doc) = BaseDocument.name (base self).
Proof.
  intros self.
  assert (well_formed self) as Hwf.
  { unfold self, set_metadata, set_status.
    apply well_formed_store, well_formed_store, well_formed_init. }
  split; [exact Hwf|]. exact (to_dict_from_json_roundtrip Json.loads self Hwf).
Defined.

(** ** Keys without a declared field *)

(** Which attribute an assignment by name writes. *)
Lemma slot_spec key :
  slot key = if decide (key ∈ job_keys) then "_" ++ key else key.
Proof.
  case_decide as Hkey.
  - apply elem_of_job_keys in Hkey.
    by destruct Hkey as [->|[->|[->|[->|[->| ->]]]]].
  - rewrite elem_of_job_keys in Hkey.
    unfold slot, property, properties, PRIVATE_KEY, JOB_KEY, KERNEL_KEY,
      UPDATED_KEY, STATUS_KEY, METADATA_KEY in *; simpl.
    repeat (case_decide; [subst; try done; tauto|]). done.
Qed.

(** The claim of C5 as stated fails: a mapping with the identity key and
    the key [collection], a property without a setter, is refused. *)
Lemma from_json_collection_refused :
  let d : gmap string value := {[ "_id" := VStr "a-b"; "collection" := VStr "job" ]} in
  d !! ID_KEY = Some (VStr "a-b") ∧
  d !! "collection" = Some (VStr "job") ∧
  (from_json Json.loads (VDict d)).2 = Raise AttributeError ∧
  ¬ ∃ job_doc, (from_json Json.loads (VDict d)).2 = Ok job_doc.
Proof.
  intros d. repeat split; try (vm_compute; reflexivity).
  intros [job_doc Hdoc]. vm_compute in Hdoc. discriminate.
Qed.

(** C5 (amended): on a mapping that holds the identity key and whose
    other keys are all assignable (none is the read-only property
    [collection] or one of [__class__], [__dict__], [__weakref__]),
    [from_json] returns a document, and every other key of the mapping,
    declared field or not, has been assigned its value: the attribute the
    key writes holds that value when no other key of the mapping writes
    the same attribute. *)
Theorem from_json_applies_keys loads d name :
  d !! ID_KEY = Some name →
  (∀ key, key ≠ ID_KEY → is_Some (d !! key) → assignable key) →
  ∃ job_doc,
    (from_json loads (VDict d)).2 = Ok job_doc ∧
    ∀ key v,
      key ≠ ID_KEY → d !! key = Some v →
      (∀ key', key' ≠ ID_KEY → is_Some (d !! key') →
               slot key' = slot key → key' = key) →
      attrs job_doc !! slot key = Some v.
Proof.
  intros Hid Hkeys. eexists.
  rewrite (from_json_assignable loads _ _ Hid Hkeys).
  split; [done|]. intros key v. apply attrs_from_items.
Qed.

Lemma from_json_applies_keys_witness :
  let d : gmap string value :=
    {[ "_id" := VStr "a-b"; "status" := VStr "PASS"; "arch" := VStr "arm" ]} in
  d !! ID_KEY = Some (VStr "a-b") ∧
  (∀ key, key ≠ ID_KEY → is_Some (d !! key) → assignable key) ∧
  ∃ job_doc,
    (from_json Json.loads (VDict d)).2 = Ok job_doc ∧
    status job_doc = Ok (VStr "PASS") ∧
    attrs job_doc !! "arch" = Some (VStr "arm").
Proof.
  intros d.
  assert (d !! ID_KEY = Some (VStr "a-b")) as Hid by (vm_compute; reflexivity).
  assert (∀ key, key ≠ ID_KEY → is_Some (d !! key) →
                 key = "status" ∨ key = "arch") as Hdom.
  { intros key Hne [v Hv]. unfold d in Hv.
    rewrite !lookup_insert, lookup_singleton in Hv.
    repeat (case_decide; [subst; tauto|]). discriminate. }
  assert (∀ key, key ≠ ID_KEY → is_Some (d !! key) → assignable key) as Hkeys.
  { intros key Hne Hin. unfold assignable, reserved.
    destruct (Hdom key Hne Hin) as [-> | ->]; vm_compute; intros Hbad;
      repeat (apply elem_of_cons in Hbad as [Hbad|Hbad]; [discriminate|]);
      by apply elem_of_nil in Hbad. }
  split; [exact Hid|]. split; [exact Hkeys|].
  destruct (from_json_applies_keys Json.loads d (VStr "a-b") Hid Hkeys)
    as (job_doc & Hdoc & Hattrs).
  exists job_doc. split; [exact Hdoc|]. split.
  - unfold status, load. change "_status" with (slot "status").
    rewrite (Hattrs "status" (VStr "PASS")); [reflexivity|discriminate|vm_compute; reflexivity|].
    intros key' Hne Hin. destruct (Hdom key' Hne Hin) as [-> | ->];
      [reflexivity|vm_compute; discriminate].
  - change "arch" with (slot "arch") at 1.
    apply (Hattrs "arch" (VStr "arm")); [discriminate|vm_compute; reflexivity|].
    intros key' Hne Hin. destruct (Hdom key' Hne Hin) as [-> | ->];
      [vm_compute; discriminate|reflexivity].
Defined.

(** ** Further runs of the model *)

(** Text is decoded first; the caller's string is left as it is. *)
Example from_json_text :
  let s := "{" ++ Json.quoted "_id" ++ ": " ++ Json.quoted "a-b" ++ ", "
               ++ Json.quoted "status" ++ ": " ++ Json.quoted "PASS" ++ "}" in
  ∃ job_doc,
    from_json Json.loads (VStr s) = (VStr s, Ok job_doc) ∧
    base job_doc = BaseDocument.__init__ (VStr "a-b") ∧
    status job_doc = Ok (VStr "PASS") ∧
    private job_doc = Ok (VBool false).
Proof. eexists. repeat split; vm_compute; reflexivity. Qed.

(** Text that decodes to something else than an object has no [pop] that
    takes the identity key. *)
Example from_json_not_a_mapping :
  (from_json Json.loads (VStr "[1, 2]")).2 = Raise TypeError ∧
  (from_json Json.loads (VStr "12")).2 = Raise AttributeError.
Proof. split; vm_compute; reflexivity. Qed.

(** A key that names a backing attribute writes it directly, so the
    property reads the value back. *)
Example from_json_backing_attribute loads :
  ∃ job_doc,
    (from_json loads (VDict {[ "_id" := VStr "a-b"; "_job" := VStr "x" ]})).2
      = Ok job_doc ∧
    job job_doc = Ok (VStr "x").
Proof. eexists. split; vm_compute; reflexivity. Qed.

(** The key [__dict__] replaces the attribute store: the attributes set
    by the constructor are gone and [to_dict] fails on the result. *)
Example from_json_rebinds_store loads :
  ∃ job_doc,
    from_json loads (VDict {[ "_id" := VStr "a-b"; "__dict__" := VDict ∅ ]})
      = (VDict {[ "__dict__" := VDict ∅ ]}, Ok job_doc) ∧
    attrs job_doc = ∅ ∧
    to_dict job_doc = Raise AttributeError.
Proof. eexists. repeat split; vm_compute; reflexivity. Qed.

(** * Further properties of the model *)

(** ** Accessors *)

Lemma fset_store f v self : fset f v self = store (field_attr f) v self.
Proof. by destruct f. Qed.

Lemma fget_load f self : fget f self = load (field_attr f) self.
Proof. by destruct f. Qed.

Lemma field_attr_inj f g : field_attr f = field_attr g → f = g.
Proof. by destruct f, g. Qed.

Lemma field_key_inj f g : field_key f = field_key g → f = g.
Proof. by destruct f, g. Qed.

(** X1: a getter returns what the setter of the same property stored, and
    what it returned before when another property was set. *)
Theorem setter_getter f g v self :
  fget f (fset f v self) = Ok v ∧
  (f ≠ g → fget g (fset f v self) = fget g self).
Proof.
  rewrite !fget_load, fset_store. unfold load, store; simpl. split.
  - by rewrite lookup_insert_eq.
  - intros Hne. rewrite lookup_insert_ne; [done|].
    intros Heq. by apply Hne, field_attr_inj.
Qed.

(** X2: of two assignments to the same property the later one stands
    alone, and assignments to different properties can be made in either
    order. *)
Theorem setters_compose f g v w self :
  fset f w (fset f v self) = fset f w self ∧
  (f ≠ g → fset f v (fset g w self) = fset g w (fset f v self)).
Proof.
  rewrite !fset_store. unfold store; simpl. split.
  - by rewrite insert_insert_eq.
  - intros Hne. f_equal. apply insert_insert_ne.
    intros Heq. by apply Hne, field_attr_inj.
Qed.

Lemma setter_getter_witness :
  let self := __init__ (VStr "a-b") (VStr "a") (VStr "b") in
  fget Status (fset Status (VStr "PASS") self) = Ok (VStr "PASS") ∧
  fget Job (fset Status (VStr "PASS") self) = Ok (VStr "a").
Proof.
  intros self.
  destruct (setter_getter Status Job (VStr "PASS") self) as [Hset Hother].
  split; [exact Hset|]. rewrite Hother; [reflexivity|discriminate].
Defined.

Lemma setters_compose_witness :
  let self := __init__ (VStr "a-b") (VStr "a") (VStr "b") in
  fset Status (VStr "FAIL") (fset Status (VStr "PASS") self)
    = fset Status (VStr "FAIL") self ∧
  fset Status (VStr "PASS") (fset Private (VBool true) self)
    = fset Private (VBool true) (fset Status (VStr "PASS") self).
Proof.
  intros self.
  destruct (setters_compose Status Private (VStr "PASS") (VStr "FAIL") self)
    as [Hsame _].
  destruct (setters_compose Status Private (VStr "PASS") (VBool true) self)
    as [_ Hswap].
  split; [exact Hsame|]. apply Hswap. discriminate.
Defined.

(** ** Serialization after assignments *)

(** X3: serializing after a setter gives the serialization from before
    with the key of that property rebound to the new value, and nothing
    else changed. *)
Theorem to_dict_after_setter f v self job_dict :
  to_dict self = Ok job_dict →
  to_dict (fset f v self) = Ok (<[field_key f := v]> job_dict).
Proof.
  intros (p & j & k & u & s & m & Hp & Hj & Hk & Hu & Hs & Hm & ->)%to_dict_Ok.
  apply to_dict_Ok. rewrite fset_store. unfold store; simpl.
  destruct f; simpl;
    [ exists v, j, k, u, s, m | exists p, v, k, u, s, m
    | exists p, j, v, u, s, m | exists p, j, k, v, s, m
    | exists p, j, k, u, v, m | exists p, j, k, u, s, v ];
    (split_and!; [by simplify_map_eq..|]);
    apply (map_eq (M := gmap string)); intros i;
    rewrite !(lookup_insert (M := gmap string));
    repeat (case_decide; simplify_eq; try done).
Qed.

Lemma to_dict_after_setter_witness :
  let self := __init__ (VStr "a-b") (VStr "a") (VStr "b") in
  ∃ job_dict,
    to_dict self = Ok job_dict ∧
    to_dict (fset Status (VStr "PASS") self)
      = Ok (<[STATUS_KEY := VStr "PASS"]> job_dict).
Proof.
  intros self. eexists. split; [vm_compute; reflexivity|].
  exact (to_dict_after_setter Status (VStr "PASS") self _ eq_refl).
Defined.

Lemma well_formed_lookup self job_dict f :
  to_dict self = Ok job_dict →
  ∃ v, fget f self = Ok v ∧ job_dict !! field_key f = Some v.
Proof.
  intros Hdict.
  destruct (to_dict_lookup _ _ Hdict) as (_ & Hp & Hj & Hk & Hu & Hs & Hm).
  apply to_dict_Ok in Hdict
    as (p & j & k & u & s & m & Hp' & Hj' & Hk' & Hu' & Hs' & Hm' & _).
  rewrite fget_load. unfold load.
  destruct f; simpl; [rewrite Hp, Hp'|rewrite Hj, Hj'|rewrite Hk, Hk'
                     |rewrite Hu, Hu'|rewrite Hs, Hs'|rewrite Hm, Hm']; eauto.
Qed.

(** X4: after the constructor and any sequence of setter calls, [to_dict]
    succeeds, and its mapping holds under the key of each property what
    the getter of that property returns. *)
Theorem to_dict_after_setters name job_name kernel_name (ops : list (field * value)) :
  let self :=
    foldl (λ self op, fset op.1 op.2 self) (__init__ name job_name kernel_name) ops in
  ∃ job_dict,
    to_dict self = Ok job_dict ∧
    ∀ f, ∃ v, fget f self = Ok v ∧ job_dict !! field_key f = Some v.
Proof.
  intros self.
  assert (well_formed self) as Hwf.
  { unfold self. generalize (well_formed_init name job_name kernel_name).
    generalize (__init__ name job_name kernel_name).
    induction ops as [|[f v] ops IH]; intros doc Hdoc; [done|].
    simpl. apply IH. rewrite fset_store. by apply well_formed_store. }
  destruct (to_dict_well_formed _ Hwf) as [job_dict Hdict].
  exists job_dict. split; [done|]. intros f. by apply well_formed_lookup.
Qed.

(** ** What the loop of [from_json] does *)

Lemma setattr_Ok_store self key v self' :
  setattr self key v = Ok self' → key ≠ "__dict__" →
  self' = store (slot key) v self.
Proof.
  unfold setattr, slot, property, properties; simpl.
  repeat (case_decide; [subst; simpl; by (intros [= <-] || intros [=])|]).
  by intros [= <-].
Qed.

(** [setattr] raises [AttributeError] or [TypeError] and nothing else. *)
Lemma setattr_Raise self key v e :
  setattr self key v = Raise e → e = AttributeError ∨ e = TypeError.
Proof.
  unfold setattr, property, properties; simpl.
  repeat (case_decide; [subst; simpl; try (intros [= <-]; by auto); try done|]).
  - destruct v; intros [= <-]; auto.
  - done.
Qed.

(** A loop that ends without an exception and never meets [__dict__] has
    made every assignment. *)
Lemma setattr_items_Ok items self shared self' shared' :
  setattr_items self shared items = (self', shared', None) →
  "__dict__" ∉ items.*1 →
  self' = foldl assign self items.
Proof.
  revert self shared.
  induction items as [|[key v] items IH]; intros self shared; simpl.
  - by intros [= <- _].
  - intros Hrun [Hkey Hrest]%not_elem_of_cons.
    destruct (setattr self key v) as [doc|] eqn:Hset; [|done].
    apply setattr_Ok_store in Hset as ->; [|done]. by eapply IH.
Qed.

Lemma well_formed_foldl_assign items self :
  well_formed self → well_formed (foldl assign self items).
Proof.
  revert self. induction items as [|item items IH]; intros self Hwf; [done|].
  simpl. by apply IH, well_formed_store.
Qed.

Section from_json_more.

Variable loads : string → option value.

(** What a returned instance says about the run. *)
Lemma from_json_Ok_inv d job_doc :
  (from_json loads (VDict d)).2 = Ok job_doc →
  ∃ name shared,
    d !! ID_KEY = Some name ∧
    setattr_items (__init__ name VNone VNone) false (map_to_list (delete ID_KEY d))
      = (job_doc, shared, None).
Proof.
  simpl. destruct (d !! ID_KEY) as [name|]; [|done].
  destruct (setattr_items _ _ _) as [[doc shared] [e|]] eqn:Hrun; simpl; [done|].
  intros [= ->]. by exists name, shared.
Qed.

Lemma from_json_Ok_foldl d job_doc :
  (from_json loads (VDict d)).2 = Ok job_doc → d !! "__dict__" = None →
  ∃ name,
    d !! ID_KEY = Some name ∧
    job_doc = foldl assign (__init__ name VNone VNone) (map_to_list (delete ID_KEY d)).
Proof.
  intros (name & shared & Hid & Hrun)%from_json_Ok_inv Hnone.
  exists name. split; [done|]. eapply setattr_items_Ok; [done|].
  intros ([key v] & Hkey & Hin%elem_of_map_to_list)%list_elem_of_fmap.
  simpl in *. subst key.
  apply lookup_delete_Some in Hin as [_ Hin]. congruence.
Qed.

End from_json_more.

(** ** What [from_json] returns *)



(** The keys that write the backing attribute of a property are the name
    of the property and the name of the attribute. *)
Lemma slot_field_attr key f :
  slot key = field_attr f → key = field_key f ∨ key = field_attr f.
Proof.
  rewrite slot_spec. case_decide as Hkey; [|by right].
  apply elem_of_job_keys in Hkey.
  destruct Hkey as [->|[->|[->|[->|[->| ->]]]]]; destruct f; simpl;
    first [by left | discriminate].
Qed.

(** X6: a property that the mapping names neither by its key nor by its
    backing attribute keeps, in the document [from_json] returns, the
    value the constructor gives it: [False] for [private], an empty
    dictionary for [metadata], [None] for the four others. *)
Theorem from_json_defaults loads d job_doc f :
  (from_json loads (VDict d)).2 = Ok job_doc →
  d !! "__dict__" = None →
  d !! field_key f = None → d !! field_attr f = None →
  fget f job_doc = Ok (field_default f).
Proof.
  intros Hdoc Hnone Hkey Hattr.
  destruct (from_json_Ok_foldl loads d job_doc Hdoc Hnone) as (name & _ & ->).
  rewrite fget_load. unfold load.
  rewrite attrs_foldl_assign_other; [by destruct f|].
  intros [key v] Hin%elem_of_map_to_list Hslot. simpl in *.
  apply lookup_delete_Some in Hin as [_ Hin].
  apply slot_field_attr in Hslot as [-> | ->]; congruence.
Qed.

Lemma from_json_defaults_witness :
  let d : gmap string value := {[ "_id" := VStr "a-b"; "status" := VStr "PASS" ]} in
  ∃ job_doc,
    (from_json Json.loads (VDict d)).2 = Ok job_doc ∧
    fget Private job_doc = Ok (VBool false) ∧
    fget Metadata job_doc = Ok (VDict ∅) ∧
    fget Updated job_doc = Ok VNone.
Proof.
  intros d.
  destruct (from_json Json.loads (VDict d)).2 as [job_doc|] eqn:Hdoc;
    [|vm_compute in Hdoc; discriminate].
  assert (d !! "__dict__" = None) as Hnone by (vm_compute; reflexivity).
  exists job_doc. split; [reflexivity|].
  split; [|split].
  - apply (from_json_defaults Json.loads d job_doc Private Hdoc Hnone);
      vm_compute; reflexivity.
  - apply (from_json_defaults Json.loads d job_doc Metadata Hdoc Hnone);
      vm_compute; reflexivity.
  - apply (from_json_defaults Json.loads d job_doc Updated Hdoc Hnone);
      vm_compute; reflexivity.
Defined.

(** ** Failures of the loop *)

Lemma setattr_refused self key v :
  key ∈ refused → ∃ e, setattr self key v = Raise e.
Proof.
  unfold refused. intros Hkey.
  repeat (apply elem_of_cons in Hkey as [->|Hkey]; [by eexists|]).
  by apply elem_of_nil in Hkey.
Qed.

(** A loop that meets a refused name ends with an exception. *)
Lemma setattr_items_refused items self shared key :
  key ∈ refused → key ∈ items.*1 →
  ∃ e, (setattr_items self shared items).2 = Some e.
Proof.
  intros Hkey. revert self shared.
  induction items as [|[key' v] items IH]; intros self shared Hin; simpl in *.
  { by apply elem_of_nil in Hin. }
  destruct (setattr self key' v) as [doc|e] eqn:Hset; [|by exists e].
  apply elem_of_cons in Hin as [->|Hin]; [|by apply IH].
  destruct (setattr_refused self key' v Hkey) as [e He]. congruence.
Qed.

(** The loop raises [AttributeError] or [TypeError] and nothing else. *)
Lemma setattr_items_Raise items self shared e :
  (setattr_items self shared items).2 = Some e →
  e = AttributeError ∨ e = TypeError.
Proof.
  revert self shared.
  induction items as [|[key v] items IH]; intros self shared; simpl; [done|].
  destruct (setattr self key v) as [doc|e'] eqn:Hset; [by apply IH|].
  simpl. intros [= <-]. by eapply setattr_Raise.
Qed.

(** X7: a mapping that holds the identity key and one of the names
    [collection], [__class__] and [__weakref__] is never accepted,
    whatever its other keys and the order they come in: [from_json]
    raises [AttributeError] or [TypeError]. *)
Theorem from_json_refused loads d name key :
  d !! ID_KEY = Some name →
  key ∈ refused → is_Some (d !! key) →
  (from_json loads (VDict d)).2 = Raise AttributeError ∨
  (from_json loads (VDict d)).2 = Raise TypeError.
Proof.
  intros Hid Hkey [v Hv]. simpl. rewrite Hid.
  destruct (setattr_items _ _ _) as [[doc shared] raised] eqn:Hrun. simpl.
  assert (key ∈ (map_to_list (delete ID_KEY d)).*1) as Hin.
  { apply list_elem_of_fmap. exists (key, v). split; [done|].
    apply elem_of_map_to_list, lookup_delete_Some. split; [|done].
    intros <-. unfold refused in Hkey.
    repeat (apply elem_of_cons in Hkey as [Hkey|Hkey]; [discriminate|]).
    by apply elem_of_nil in Hkey. }
  destruct (setattr_items_refused _ (__init__ name VNone VNone) false key Hkey Hin)
    as [e He].
  rewrite Hrun in He. simpl in He. subst raised.
  pose proof (setattr_items_Raise (map_to_list (delete ID_KEY d))
                (__init__ name VNone VNone) false e) as Hor.
  rewrite Hrun in Hor. by destruct (Hor eq_refl) as [-> | ->]; [left|right].
Qed.

Lemma from_json_refused_witness :
  let d : gmap string value :=
    {[ "_id" := VStr "a-b"; "status" := VStr "PASS"; "__class__" := VStr "X" ]} in
  d !! ID_KEY = Some (VStr "a-b") ∧
  "__class__" ∈ refused ∧
  is_Some (d !! "__class__") ∧
  ((from_json Json.loads (VDict d)).2 = Raise AttributeError ∨
   (from_json Json.loads (VDict d)).2 = Raise TypeError).
Proof.
  intros d.
  assert (d !! ID_KEY = Some (VStr "a-b")) as Hid by (vm_compute; reflexivity).
  assert ("__class__" ∈ refused) as Hkey by (unfold refused; right; left).
  assert (is_Some (d !! "__class__")) as Hin by (vm_compute; eexists; reflexivity).
  split; [exact Hid|]. split; [exact Hkey|]. split; [exact Hin|].
  exact (from_json_refused Json.loads d (VStr "a-b") "__class__" Hid Hkey Hin).
Defined.

(** X8: on a mapping, [from_json] raises [KeyError] exactly when the
    identity key is missing, and the key it reports is then [_id]: no
    other key of the mapping can make it raise [KeyError]. *)
Theorem from_json_KeyError_iff loads d key :
  (from_json loads (VDict d)).2 = Raise (KeyError key) ↔
  d !! ID_KEY = None ∧ key = ID_KEY.
Proof.
  simpl. destruct (d !! ID_KEY) as [name|] eqn:Hid.
  - destruct (setattr_items _ _ _) as [[doc shared] raised] eqn:Hrun. simpl.
    split; [|by intros [? _]]. destruct raised as [e|]; [|done]. intros [= ->].
    pose proof (setattr_items_Raise (map_to_list (delete ID_KEY d))
                  (__init__ name VNone VNone) false (KeyError key)) as Hor.
    rewrite Hrun in Hor. by destruct (Hor eq_refl).
  - simpl. split; [by intros [= <-]|by intros [_ ->]].
Qed.

(** ** What [from_json] does to its argument *)

(** X9: when the mapping holds the identity key and not the key
    [__dict__], the call leaves the caller's mapping with that one entry
    removed and every other entry as it was, whether it returns or
    raises. *)
Theorem from_json_argument_frame loads d name :
  d !! ID_KEY = Some name →
  d !! "__dict__" = None →
  (from_json loads (VDict d)).1 = VDict (delete ID_KEY d).
Proof.
  intros Hid Hnone. simpl. rewrite Hid.
  destruct (setattr_items _ _ _) as [[doc shared] raised] eqn:Hrun. simpl.
  destruct shared; [|done].
  destruct (setattr_items_shared _ _ _ _ _ _ Hrun eq_refl) as [?|Hin]; [done|].
  apply list_elem_of_fmap in Hin as ([key v] & Hkey & Hin%elem_of_map_to_list).
  simpl in *. subst key. apply lookup_delete_Some in Hin as [_ Hin]. congruence.
Qed.

Lemma from_json_argument_frame_witness :
  let d : gmap string value :=
    {[ "_id" := VStr "a-b"; "status" := VStr "PASS"; "collection" := VStr "x" ]} in
  d !! ID_KEY = Some (VStr "a-b") ∧
  d !! "__dict__" = None ∧
  (from_json Json.loads (VDict d)).1
    = VDict {[ "status" := VStr "PASS"; "collection" := VStr "x" ]}.
Proof.
  intros d.
  assert (d !! ID_KEY = Some (VStr "a-b")) as Hid by (vm_compute; reflexivity).
  assert (d !! "__dict__" = None) as Hnone by (vm_compute; reflexivity).
  split; [exact Hid|]. split; [exact Hnone|].
  rewrite (from_json_argument_frame Json.loads d (VStr "a-b") Hid Hnone).
  vm_compute. reflexivity.
Defined.

(** ** Arguments that are not mappings *)



(** ** The order of the items *)





(** ** Round trip from the serialized form *)

(** X12: a mapping with exactly the identity key and the six keys of
    [to_dict] is read by [from_json] into a document that [to_dict]
    serializes to that same mapping. *)
Theorem from_json_to_dict_roundtrip loads d :
  dom d = {[ID_KEY]} ∪ job_keys →
  ∃ job_doc,
    (from_json loads (VDict d)).2 = Ok job_doc ∧
    to_dict job_doc = Ok d.
Proof.
  intros Hdom.
  assert (∀ key, is_Some (d !! key) ↔ key = ID_KEY ∨ key ∈ job_keys) as Hkeys.
  { intros key. by rewrite <- elem_of_dom, Hdom, elem_of_union, elem_of_singleton. }
  destruct (proj2 (Hkeys ID_KEY) (or_introl eq_refl)) as [name Hid].
  assert (∀ key, key ≠ ID_KEY → is_Some (d !! key) → key ∈ job_keys) as Hjob.
  { intros key Hne Hin. apply Hkeys in Hin. tauto. }
  eexists. rewrite (from_json_assignable loads d name Hid).
  2: { intros key Hne Hin. by apply job_keys_assignable, Hjob. }
  split; [done|].
  set (job_doc := foldl assign _ _).
  assert (∀ f, attrs job_doc !! field_attr f = d !! field_key f) as Hattrs.
  { intros f.
    assert (field_key f ∈ job_keys) as Hf
      by (apply elem_of_job_keys; destruct f; simpl; tauto).
    assert (field_key f ≠ ID_KEY) as Hne by (by destruct f).
    destruct (proj2 (Hkeys (field_key f)) (or_intror Hf)) as [v Hv].
    rewrite Hv. replace (field_attr f) with (slot (field_key f)) by (by destruct f).
    apply attrs_from_items; [done..|].
    intros key' Hne' Hin'. apply slot_job_keys_inj; [done|by apply Hjob]. }
  assert (well_formed job_doc) as [job_dict Hdict]%to_dict_well_formed
    by apply well_formed_foldl_assign, well_formed_init.
  rewrite Hdict. f_equal. apply map_eq. intros key.
  destruct (to_dict_lookup _ _ Hdict) as (Hi & Hp & Hj & Hk & Hu & Hs & Hm).
  destruct (decide (key = ID_KEY)) as [->|Hne].
  { rewrite Hi, Hid. unfold job_doc. by rewrite base_foldl_assign. }
  destruct (decide (key ∈ job_keys)) as [Hin|Hnotin].
  - apply elem_of_job_keys in Hin.
    destruct Hin as [->|[->|[->|[->|[->| ->]]]]].
    + rewrite Hp. apply (Hattrs Private).
    + rewrite Hj. apply (Hattrs Job).
    + rewrite Hk. apply (Hattrs Kernel).
    + rewrite Hu. apply (Hattrs Updated).
    + rewrite Hs. apply (Hattrs Status).
    + rewrite Hm. apply (Hattrs Metadata).
  - assert (d !! key = None) as ->.
    { apply eq_None_not_Some. rewrite Hkeys. tauto. }
    apply not_elem_of_dom. rewrite (to_dict_dom _ _ Hdict).
    unfold BaseDocument.to_dict.
    rewrite dom_singleton_L, elem_of_union, elem_of_singleton. tauto.
Qed.

Lemma from_json_to_dict_roundtrip_witness :
  let d : gmap string value :=
    {[ "_id" := VStr "a-b"; "job" := VStr "a"; "kernel" := VStr "b";
       "private" := VBool true; "status" := VStr "PASS";
       "updated" := VStr "2014-04-01"; "metadata" := VDict ∅ ]} in
  dom d = {[ID_KEY]} ∪ job_keys ∧
  ∃ job_doc,
    (from_json Json.loads (VDict d)).2 = Ok job_doc ∧
    to_dict job_doc = Ok d.
Proof.
  intros d.
  assert (dom d = {[ID_KEY]} ∪ job_keys) as Hdom.
  { unfold d, job_keys. rewrite !dom_insert_L, dom_singleton_L.
    apply set_eq. intros key. rewrite !elem_of_union, !elem_of_singleton.
    unfold ID_KEY, PRIVATE_KEY, JOB_KEY, KERNEL_KEY, UPDATED_KEY, STATUS_KEY,
      METADATA_KEY. tauto. }
  split; [exact Hdom|]. exact (from_json_to_dict_roundtrip Json.loads d Hdom).
Defined.
